(** * The command-line layer of the release-engineering tool

    A shallow embedding of [releng/metaborg/releng/cmd.py].  Every
    sub-command's [main] is a small sequential program that prints, asks the
    user for confirmation and calls into the fleet, version, build and
    release back ends.  Those back ends live in other modules; here they are
    calls answered by an environment, and the object of study is which calls
    a command makes, in which order, what it prints and which exit code it
    returns. *)

From Stdlib Require Import String List ZArith Bool.
Import ListNotations.
Local Open Scope string_scope.
Local Open Scope Z_scope.

(** ** Values that cross the boundary *)

(** [git.repo.base.Repo]: the one attribute the commands read. *)
Record Repo : Type := mkRepo { working_tree_dir : string }.

(** [metaborg.util.git.RemoteType]. *)
Inductive RemoteType : Type := SSH | HTTP.

(** A Python exception, as far as [except RuntimeError] and [str(detail)]
    can tell exceptions apart. *)
Record Exc : Type := mkExc { exc_is_RuntimeError : bool; exc_str : string }.

Definition UnboundLocalError : Exc :=
  mkExc false "local variable referenced before assignment".

(** Attribute values assigned to the builder object. *)
Inductive Val : Type :=
| VNone
| VBool (b : bool)
| VStr (s : string).

Definition of_opt (o : option string) : Val :=
  match o with Some s => VStr s | None => VNone end.

(** The [RelengBuilder] instance: its [targets] listing and the instance
    attributes, latest assignment first. *)
Record Builder : Type := mkBuilder {
  targets : list string;
  attrs : list (string * Val)
}.

Definition setattr (name : string) (v : Val) (b : Builder) : Builder :=
  mkBuilder (targets b) ((name, v) :: attrs b).

Fixpoint lookup_attr (name : string) (l : list (string * Val)) : option Val :=
  match l with
  | [] => None
  | (n, v) :: l' => if String.eqb n name then Some v else lookup_attr name l'
  end.

Definition getattr (b : Builder) (name : string) : option Val :=
  lookup_attr name (attrs b).

(** ** Calls out of the module *)

Inductive Call : Type :=
| YesNo
| YesNoTwice
| YesNoTrice
| UpdateAll (repo : Repo) (depth : option Z)
| SetRemoteAll (repo : Repo) (toType : RemoteType)
| CheckoutAll (repo : Repo)
| ResetAll (repo : Repo) (toRemote : bool)
| CleanAll (repo : Repo)
| SetVersions (repo : Repo) (fromVersion toVersion : string)
    (setEclipseVersions dryRun commit : bool)
| RelengBuilder (repo : Repo) (buildDeps : bool)
| create_now_qualifier (repo : Repo)
| builder_build (builder : Builder) (components : list string)
| Release (repo : Repo) (releaseBranch developBranch curDevelopVersion
    nextReleaseVersion nextDevelopVersion : string)
| repo_changed (repo : Repo) (destination : string).

(** What a call hands back when it returns. *)
Definition resp (c : Call) : Type :=
  match c with
  | YesNo | YesNoTwice | YesNoTrice => bool
  | RelengBuilder _ _ => Builder
  | create_now_qualifier _ => string
  | repo_changed _ _ => (bool * string)%type
  | _ => unit
  end.

Inductive Outcome (X : Type) : Type :=
| Returned (x : X)
| Raised (e : Exc).
Arguments Returned {X} x.
Arguments Raised {X} e.

(** ** Programs *)

Inductive Prog (A : Type) : Type :=
| Ret (a : A)
| Throw (e : Exc)
| Out (s : string) (k : Prog A)
| Vis (c : Call) (k : Outcome (resp c) -> Prog A).
Arguments Ret {A} a.
Arguments Throw {A} e.
Arguments Out {A} s k.
Arguments Vis {A} c k.

Fixpoint bind {A B : Type} (p : Prog A) (f : A -> Prog B) : Prog B :=
  match p with
  | Ret a => f a
  | Throw e => Throw e
  | Out s k => Out s (bind k f)
  | Vis c k => Vis c (fun o => bind (k o) f)
  end.

Declare Scope prog_scope.
Delimit Scope prog_scope with prog.
Notation "x <- p ;; q" := (bind p (fun x => q))
  (at level 100, p at next level, right associativity) : prog_scope.
Notation "p ;; q" := (bind p (fun _ => q))
  (at level 100, right associativity) : prog_scope.
Local Open Scope prog_scope.

(** [print(s)]. *)
Definition print (s : string) : Prog unit := Out s (Ret tt).

(** A call whose exception, if any, propagates. *)
Definition call (c : Call) : Prog (resp c) :=
  Vis c (fun o => match o with Returned x => Ret x | Raised e => Throw e end).

(** [try: p  except RuntimeError as detail: h detail]. *)
Fixpoint try_except_RuntimeError {A : Type} (p : Prog A) (h : Exc -> Prog A)
  : Prog A :=
  match p with
  | Ret a => Ret a
  | Throw e => if exc_is_RuntimeError e then h e else Throw e
  | Out s k => Out s (try_except_RuntimeError k h)
  | Vis c k => Vis c (fun o => try_except_RuntimeError (k o) h)
  end.

(** A block of statements either executes [return code] ([Some code]) or
    falls through to the statements after it ([None]). *)
Definition fall_through : Prog (option Z) := Ret None.
Definition return_ (code : Z) : Prog (option Z) := Ret (Some code).

Definition then_ (block : Prog (option Z)) (rest : Prog Z) : Prog Z :=
  r <- block ;; match r with Some code => Ret code | None => rest end.

(** ** Running a program against an environment *)

Inductive Event : Type :=
| EvOut (s : string)
| EvCall (c : Call) (o : Outcome (resp c)).

(** The environment answers a call knowing everything that happened so far. *)
Definition Env : Type := list Event -> forall c : Call, Outcome (resp c).

Inductive Result (A : Type) : Type :=
| Done (a : A)
| Uncaught (e : Exc).
Arguments Done {A} a.
Arguments Uncaught {A} e.

Fixpoint run {A : Type} (env : Env) (p : Prog A) (h : list Event)
  : Result A * list Event :=
  match p with
  | Ret a => (Done a, h)
  | Throw e => (Uncaught e, h)
  | Out s k => run env k (h ++ [EvOut s])
  | Vis c k => let o := env h c in run env (k o) (h ++ [EvCall c o])
  end.

Definition exec {A : Type} (env : Env) (p : Prog A) : Result A * list Event :=
  run env p [].

Definition exit_code {A : Type} (env : Env) (p : Prog A) : Result A :=
  fst (exec env p).

Definition trace {A : Type} (env : Env) (p : Prog A) : list Event :=
  snd (exec env p).

(** ** Reading a trace *)

Fixpoint calls (tr : list Event) : list Call :=
  match tr with
  | [] => []
  | EvOut _ :: tr' => calls tr'
  | EvCall c _ :: tr' => c :: calls tr'
  end.

Fixpoint outputs (tr : list Event) : list string :=
  match tr with
  | [] => []
  | EvOut s :: tr' => s :: outputs tr'
  | EvCall _ _ :: tr' => outputs tr'
  end.

Definition is_build (c : Call) : bool :=
  match c with
  | builder_build _ _ => true
  | _ => false
  end.

(** A prompt was answered with no. *)
Definition answered_no (ev : Event) : bool :=
  match ev with
  | EvCall YesNo (Returned false)
  | EvCall YesNoTwice (Returned false)
  | EvCall YesNoTrice (Returned false) => true
  | _ => false
  end.

(** A prompt was answered with yes. *)
Definition answered_yes (ev : Event) : bool :=
  match ev with
  | EvCall YesNo (Returned true)
  | EvCall YesNoTwice (Returned true)
  | EvCall YesNoTrice (Returned true) => true
  | _ => false
  end.

(** A call ended in an exception. *)
Definition call_raised (ev : Event) : bool :=
  match ev with
  | EvCall _ (Raised _) => true
  | _ => false
  end.

(** ** set-remote *)

Module MetaborgRelengSetRemote.

Record Args : Type := mkArgs { toSsh : bool; toHttp : bool }.

(** [--ssh] and [--http] exclude each other in the switch declarations. *)
Definition accepted (a : Args) : bool := negb (toSsh a && toHttp a).

Definition main (repo : Repo) (a : Args) : Prog Z :=
  then_
    (if negb (toSsh a) && negb (toHttp a) then
       print "Must choose between SSH (-s) or HTTP (-h)" ;;
       return_ 1
     else fall_through)
    (toType <- (if toSsh a then Ret SSH
                else if toHttp a then Ret HTTP
                else Throw UnboundLocalError) ;;
     print "Setting remotes for all submodules" ;;
     call (SetRemoteAll repo toType) ;;
     Ret 0).

End MetaborgRelengSetRemote.

(** ** clean-update *)

Module MetaborgRelengCleanUpdate.

Record Args : Type := mkArgs { confirmPrompt : bool; depth : option Z }.

Definition main (repo : Repo) (a : Args) : Prog Z :=
  then_
    (if negb (confirmPrompt a) then
       print ("WARNING: This will DELETE UNCOMMITED CHANGES, DELETE UNPUSHED COMMITS, and DELETE UNTRACKED FILES. Do you "
              ++ "want to continue?") ;;
       yes <- call YesNoTrice ;;
       if negb yes then return_ 1 else fall_through
     else fall_through)
    (print "Resetting, cleaning, and updating all submodules" ;;
     call (CheckoutAll repo) ;;
     call (ResetAll repo true) ;;
     call (CheckoutAll repo) ;;
     call (CleanAll repo) ;;
     call (UpdateAll repo (depth a)) ;;
     Ret 0).

End MetaborgRelengCleanUpdate.

(** ** clean *)

Module MetaborgRelengClean.

Record Args : Type := mkArgs { confirmPrompt : bool }.

Definition main (repo : Repo) (a : Args) : Prog Z :=
  print "Cleaning all submodules" ;;
  then_
    (if negb (confirmPrompt a) then
       print "WARNING: This will DELETE UNTRACKED FILES, do you want to continue?" ;;
       yes <- call YesNoTwice ;;
       if negb yes then return_ 1 else fall_through
     else fall_through)
    (call (CleanAll repo) ;;
     Ret 0).

End MetaborgRelengClean.

(** ** reset *)

Module MetaborgRelengReset.

Record Args : Type := mkArgs { confirmPrompt : bool; toRemote : bool }.

Definition main (repo : Repo) (a : Args) : Prog Z :=
  print "Resetting all submodules" ;;
  then_
    (if toRemote a then
       if negb (confirmPrompt a) then
         print "WARNING: This will DELETE UNCOMMITED CHANGES and DELETE UNPUSHED COMMITS, do you want to continue?" ;;
         yes <- call YesNoTrice ;;
         if negb yes then return_ 1 else fall_through
       else fall_through
     else
       if negb (confirmPrompt a) then
         print "WARNING: This will DELETE UNCOMMITED CHANGES, do you want to continue?" ;;
         yes <- call YesNoTwice ;;
         if negb yes then return_ 1 else fall_through
       else fall_through)
    (call (ResetAll repo (toRemote a)) ;;
     Ret 0).

End MetaborgRelengReset.

(** ** set-versions *)

Module MetaborgRelengSetVersions.

Record Args : Type := mkArgs {
  fromVersion : string;
  toVersion : string;
  commit : bool;
  dryRun : bool;
  confirmPrompt : bool
}.

Definition main (repo : Repo) (a : Args) : Prog Z :=
  then_
    (if confirmPrompt a && negb (dryRun a) then
       if commit a then
         print "WARNING: This will CHANGE and COMMIT pom.xml, MANIFEST.MF, and feature.xml files, do you want to continue?" ;;
         fall_through
       else
         print "WARNING: This will CHANGE pom.xml, MANIFEST.MF, and feature.xml files, do you want to continue?" ;;
         yes <- call YesNo ;;
         if negb yes then return_ 1 else fall_through
     else fall_through)
    (call (SetVersions repo (fromVersion a) (toVersion a) true (dryRun a) (commit a)) ;;
     Ret 0).

End MetaborgRelengSetVersions.

(** ** build *)

Module MetaborgRelengBuild.

Record Args : Type := mkArgs {
  buildStratego : bool;
  bootstrapStratego : bool;
  noStrategoTest : bool;
  qualifier : option string;
  nowQualifier : bool;
  cleanRepo : bool;
  noDeps : bool;
  deploy : bool;
  release : bool;
  skipExpensive : bool;
  copyArtifacts : option string;
  generateJavaDoc : bool;
  noClean : bool;
  skipTests : bool;
  settings : option string;
  globalSettings : option string;
  localRepo : option string;
  offline : bool;
  debug : bool;
  quiet : bool;
  noNative : bool;
  stack : string;
  minHeap : string;
  maxHeap : string
}.

(** [--qualifier] and [--now-qualifier] exclude each other in the switch
    declarations. *)
Definition accepted (a : Args) : bool :=
  negb (match qualifier a with Some _ => nowQualifier a | None => false end).

(** Truth value of [self.qualifier]: [None] and the empty string are false. *)
Definition truthy (o : option string) : bool :=
  match o with
  | Some s => negb (String.eqb s "")
  | None => false
  end.

(** [', '.join(l)]. *)
Definition join (sep : string) (l : list string) : string := String.concat sep l.

(** ['-Xss{} -Xms{} -Xmx{}'.format(stack, minHeap, maxHeap)]. *)
Definition format_mavenOpts (stack minHeap maxHeap : string) : string :=
  "-Xss" ++ stack ++ " -Xms" ++ minHeap ++ " -Xmx" ++ maxHeap.

Definition main (repo : Repo) (a : Args) (components : list string) : Prog Z :=
  builder <- call (RelengBuilder repo (negb (noDeps a))) ;;
  then_
    (if (Z.of_nat (length components) =? 0)%Z then
       print "No components specified, pass one or more of the following components to build:" ;;
       print (join ", " (targets builder)) ;;
       return_ 1
     else fall_through)
    (let builder := setattr "copyArtifactsTo" (of_opt (copyArtifacts a)) builder in
     let builder := setattr "clean" (VBool (negb (noClean a))) builder in
     let builder := setattr "deploy" (VBool (deploy a)) builder in
     let builder := setattr "release" (VBool (release a)) builder in
     let builder := setattr "skipTests" (VBool (skipTests a)) builder in
     let builder := setattr "skipExpensive" (VBool (skipExpensive a)) builder in
     let builder := setattr "offline" (VBool (offline a)) builder in
     let builder := setattr "debug" (VBool (debug a)) builder in
     let builder := setattr "quiet" (VBool (quiet a)) builder in
     qualifier <- (if truthy (qualifier a) then Ret (of_opt (qualifier a))
                   else if nowQualifier a then
                     q <- call (create_now_qualifier repo) ;; Ret (VStr q)
                   else Ret VNone) ;;
     let builder := setattr "qualifier" qualifier builder in
     let builder := setattr "generateJavaDoc" (VBool (generateJavaDoc a)) builder in
     let builder := setattr "buildStratego" (VBool (buildStratego a)) builder in
     let builder := setattr "bootstrapStratego" (VBool (bootstrapStratego a)) builder in
     let builder := setattr "testStratego" (VBool (negb (noStrategoTest a))) builder in
     let builder := setattr "mavenSettingsFile" (of_opt (settings a)) builder in
     let builder := setattr "mavenGlobalSettingsFile" (of_opt (globalSettings a)) builder in
     let builder := setattr "mavenCleanLocalRepo" (VBool (cleanRepo a)) builder in
     let builder := setattr "mavenLocalRepo" (of_opt (localRepo a)) builder in
     let builder := setattr "mavenOpts"
                      (VStr (format_mavenOpts (stack a) (minHeap a) (maxHeap a))) builder in
     let builder := setattr "gradleNoNative" (VBool (noNative a)) builder in
     try_except_RuntimeError
       (call (builder_build builder components) ;;
        Ret 0)
       (fun detail =>
          print (exc_str detail) ;;
          Ret 1)).

End MetaborgRelengBuild.

(** ** release *)

Module MetaborgRelengRelease.

Record Args : Type := mkArgs {
  releaseBranch : string;
  developBranch : string;
  curDevelopVersion : string;
  nextReleaseVersion : string;
  nextDevelopVersion : string
}.

Section Main.

(** [metaborg.util.path.CommonPrefix], defined in another module. *)
Variable CommonPrefix : list string -> string.

(** The value of [path.dirname(path.realpath(__file__))]. *)
Variable scriptDir : string.

Definition main (repo : Repo) (a : Args) : Prog Z :=
  print "Performing interactive release" ;;
  let repoDir := working_tree_dir repo in
  then_
    (if String.eqb (CommonPrefix [repoDir; scriptDir]) repoDir then
       print ("Cannot perform release on the same repository this script is contained in, please set another repository "
              ++ "using the -r/--repo switch.") ;;
       return_ 1
     else fall_through)
    (call (Release repo (releaseBranch a) (developBranch a) (curDevelopVersion a)
             (nextReleaseVersion a) (nextDevelopVersion a)) ;;
     Ret 0).

End Main.

End MetaborgRelengRelease.

(** ** changed *)

Module MetaborgRelengChanged.

Record Args : Type := mkArgs { destination : string; forceChange : bool }.

Definition main (repo : Repo) (a : Args) : Prog Z :=
  r <- call (repo_changed repo (destination a)) ;;
  let '(changed, qualifier) := r in
  if forceChange a || changed then
    print qualifier ;;
    Ret 0
  else Ret 1.

End MetaborgRelengChanged.

(** ** More ways to read a trace *)

(** The events up to, and without, the first call that satisfies [p]; the
    whole trace when there is none. *)
Fixpoint before (p : Call -> bool) (tr : list Event) : list Event :=
  match tr with
  | [] => []
  | EvOut s :: tr' => EvOut s :: before p tr'
  | EvCall c o :: tr' => if p c then [] else EvCall c o :: before p tr'
  end.

(** Only the calls, with their outcomes. *)
Fixpoint call_events (tr : list Event) : list Event :=
  match tr with
  | [] => []
  | EvOut _ :: tr' => call_events tr'
  | EvCall c o :: tr' => EvCall c o :: call_events tr'
  end.

(** How the calls of [builder.build] ended. *)
Fixpoint build_outcomes (tr : list Event) : list (Outcome unit) :=
  match tr with
  | [] => []
  | EvCall (builder_build _ _) o :: tr' => o :: build_outcomes tr'
  | _ :: tr' => build_outcomes tr'
  end.

(** What the calls of [create_now_qualifier] returned. *)
Fixpoint now_qualifiers (tr : list Event) : list string :=
  match tr with
  | [] => []
  | EvCall (create_now_qualifier _) (Returned q) :: tr' => q :: now_qualifiers tr'
  | _ :: tr' => now_qualifiers tr'
  end.

Definition is_CleanAll (c : Call) : bool :=
  match c with CleanAll _ => true | _ => false end.

Definition is_ResetAll (c : Call) : bool :=
  match c with ResetAll _ _ => true | _ => false end.

(** Some call satisfying [p] was made. *)
Definition invoked (p : Call -> bool) (tr : list Event) : Prop :=
  existsb p (calls tr) = true.

(** Every call in the trace returned. *)
Definition all_returned (tr : list Event) : Prop :=
  existsb call_raised tr = false.

(** Some prompt in the trace was answered with yes. *)
Definition confirmed (tr : list Event) : Prop :=
  existsb answered_yes tr = true.

(** The three reasons the command-line contract gives for exit code 1. *)
Definition user_abort (tr : list Event) : Prop :=
  existsb answered_no tr = true.

Definition backend_failure (tr : list Event) : Prop :=
  existsb call_raised tr = true.

(** A validation failure is reported, so something was printed. *)
Definition validation_failure (tr : list Event) : Prop :=
  outputs tr <> [].

Definition exit_1_reserved (r : Result Z) (tr : list Event) : Prop :=
  r = Done 1 -> user_abort tr \/ validation_failure tr \/ backend_failure tr.

(** The qualifier rule in the words of the specification: a given
    [--qualifier] string reaches the builder as it is. *)
Definition qualifier_switch_kept (env : Env) (repo : Repo)
    (a : MetaborgRelengBuild.Args) (components : list string) : Prop :=
  forall s, MetaborgRelengBuild.qualifier a = Some s ->
  forall b cs,
    In (builder_build b cs)
       (calls (trace env (MetaborgRelengBuild.main repo a components))) ->
    getattr b "qualifier" = Some (VStr s).

(** ** Scripted environments

    Concrete environments for running the commands: every back-end call
    returns, the prompts get one fixed answer, and [builder.build] ends as
    the script says. *)

Record Script : Type := mkScript {
  prompt_answer : bool;
  changed_answer : bool * string;
  new_builder : Builder;
  now_qualifier : string;
  build_outcome : Outcome unit
}.

Definition scripted (s : Script) : Env :=
  fun _ c =>
    match c return Outcome (resp c) with
    | YesNo | YesNoTwice | YesNoTrice => Returned (prompt_answer s)
    | RelengBuilder _ _ => Returned (new_builder s)
    | create_now_qualifier _ => Returned (now_qualifier s)
    | repo_changed _ _ => Returned (changed_answer s)
    | builder_build _ _ => build_outcome s
    | UpdateAll _ _ | SetRemoteAll _ _ | CheckoutAll _ | ResetAll _ _
    | CleanAll _ | SetVersions _ _ _ _ _ _ | Release _ _ _ _ _ _ => Returned tt
    end.

Definition sample_repo : Repo := mkRepo "/work/spoofax-releng".

Definition sample_builder : Builder := mkBuilder ["java"; "eclipse"] [].

Definition sample_script (yes : bool) : Script :=
  mkScript yes (false, "develop-20230103-000000") sample_builder
    "develop-20231104-120000" (Returned tt).

(** A build whose back end fails. *)
Definition failing_script : Script :=
  mkScript true (false, "develop-20230103-000000") sample_builder
    "develop-20231104-120000" (Raised (mkExc true "Maven build failed")).

(** [b build] with every switch at its default and [-q], [-n] as given. *)
Definition build_args (q : option string) (now : bool) : MetaborgRelengBuild.Args :=
  MetaborgRelengBuild.mkArgs false false false q now false false false false
    false None false false false None None None false false false false
    "16M" "512M" "1024M".

(** A stand-in for [CommonPrefix] on two paths: the first path when the
    second starts with it, the empty path otherwise. *)
Definition sample_CommonPrefix (paths : list string) : string :=
  match paths with
  | [p; q] => if String.prefix p q then p else ""
  | _ => ""
  end.

(** ** The remaining commands

    The root application and the sub-commands that follow need calls the
    commands above do not make: the other fleet operations, the bootstrap
    workflow, the qualifier, the file system and the generators.  [Op] adds
    them to [Call]; programs over [Op] are built and run like the ones over
    [Call]. *)

(** The keyword arguments of [MetaborgMavenSettingsGeneratorGenerator]. *)
Record MavenSettings : Type := mkMavenSettings {
  location : string;
  metaborgReleases : string;
  metaborgSnapshots : option string;
  spoofaxUpdateSite : option string;
  centralMirror : string
}.

Inductive Op : Type :=
| Base (c : Call)
| TrackAll (repo : Repo)
| MergeAll (repo : Repo) (branch : string)
| TagAll (repo : Repo) (tag : string) (description : option string)
| PushAll (repo : Repo)
| Bootstrap (repo : Repo) (curVersion curBaselineVersion : string)
| create_qualifier (repo : Repo)
| GenerateIcons (repo : Repo) (destination text : string)
| help
| ExistingDirectory (directory : string)
| open_Repo (directory : string)
| isfile (p : string)
| MetaborgMavenSettingsGeneratorGenerator (kwargs : MavenSettings)
| generate (generator : MavenSettings).

Definition answer_of (o : Op) : Type :=
  match o with
  | Base c => resp c
  | create_qualifier _ => string
  | open_Repo _ => Repo
  | isfile _ => bool
  | _ => unit
  end.

Inductive Cmd (A : Type) : Type :=
| CRet (a : A)
| CThrow (e : Exc)
| COut (s : string) (k : Cmd A)
| CVis (o : Op) (k : Outcome (answer_of o) -> Cmd A).
Arguments CRet {A} a.
Arguments CThrow {A} e.
Arguments COut {A} s k.
Arguments CVis {A} o k.

Fixpoint cbind {A B : Type} (p : Cmd A) (f : A -> Cmd B) : Cmd B :=
  match p with
  | CRet a => f a
  | CThrow e => CThrow e
  | COut s k => COut s (cbind k f)
  | CVis o k => CVis o (fun x => cbind (k x) f)
  end.

Declare Scope cmd_scope.
Delimit Scope cmd_scope with cmd.
Notation "x <- p ;; q" := (cbind p (fun x => q))
  (at level 100, p at next level, right associativity) : cmd_scope.
Notation "p ;; q" := (cbind p (fun _ => q))
  (at level 100, right associativity) : cmd_scope.
Local Open Scope cmd_scope.

Definition cprint (s : string) : Cmd unit := COut s (CRet tt).

Definition cop (o : Op) : Cmd (answer_of o) :=
  CVis o (fun x => match x with Returned a => CRet a | Raised e => CThrow e end).

Definition cfall_through : Cmd (option Z) := CRet None.
Definition creturn (code : Z) : Cmd (option Z) := CRet (Some code).

Definition cthen (block : Cmd (option Z)) (rest : Cmd Z) : Cmd Z :=
  r <- block ;; match r with Some code => CRet code | None => rest end.

Inductive Step : Type :=
| StOut (s : string)
| StOp (o : Op) (x : Outcome (answer_of o)).

Definition World : Type := list Step -> forall o : Op, Outcome (answer_of o).

Fixpoint crun {A : Type} (w : World) (p : Cmd A) (h : list Step)
  : Result A * list Step :=
  match p with
  | CRet a => (Done a, h)
  | CThrow e => (Uncaught e, h)
  | COut s k => crun w k (h ++ [StOut s])
  | CVis o k => let x := w h o in crun w (k x) (h ++ [StOp o x])
  end.

Definition cexit {A : Type} (w : World) (p : Cmd A) : Result A :=
  fst (crun w p []).

Definition ctrace {A : Type} (w : World) (p : Cmd A) : list Step :=
  snd (crun w p []).

Fixpoint ops (tr : list Step) : list Op :=
  match tr with
  | [] => []
  | StOut _ :: tr' => ops tr'
  | StOp o _ :: tr' => o :: ops tr'
  end.

Fixpoint printed (tr : list Step) : list string :=
  match tr with
  | [] => []
  | StOut s :: tr' => s :: printed tr'
  | StOp _ _ :: tr' => printed tr'
  end.

Definition op_raised (st : Step) : bool :=
  match st with
  | StOp _ (Raised _) => true
  | _ => false
  end.

Definition said_yes (st : Step) : bool :=
  match st with
  | StOp (Base YesNo) (Returned true) => true
  | _ => false
  end.

Definition said_no (st : Step) : bool :=
  match st with
  | StOp (Base YesNo) (Returned false) => true
  | _ => false
  end.

(** ** The root application *)

Module MetaborgReleng.

(** The instance attributes [main] reads and writes, and whether a
    sub-command follows on the command line. *)
Record App : Type := mkApp {
  repoDirectory : string;
  repo : option Repo;
  nested_command : bool
}.

(** The class attributes: [repoDirectory = '.'], [repo = None]. *)
Definition fresh (nested : bool) : App := mkApp "." None nested.

(** The [--repo] switch. *)
Definition repo_directory (self : App) (directory : string) : App :=
  mkApp directory (repo self) (nested_command self).

Definition main (self : App) : Cmd (Z * App) :=
  if negb (nested_command self) then
    cprint "Error: no command given" ;;
    cop help ;;
    CRet (1, self)
  else
    cop (ExistingDirectory (repoDirectory self)) ;;
    r <- cop (open_Repo (repoDirectory self)) ;;
    CRet (0, mkApp (repoDirectory self) (Some r) (nested_command self)).

End MetaborgReleng.

(** ** update *)

Module MetaborgRelengUpdate.

Record Args : Type := mkArgs { depth : option Z }.

Definition main (repo : Repo) (a : Args) : Cmd Z :=
  cprint "Updating all submodules" ;;
  cop (Base (UpdateAll repo (depth a))) ;;
  CRet 0.

End MetaborgRelengUpdate.

(** ** track *)

Module MetaborgRelengTrack.

Definition main (repo : Repo) : Cmd Z :=
  cprint "Setting tracking branch for each submodule" ;;
  cop (TrackAll repo) ;;
  CRet 0.

End MetaborgRelengTrack.

(** ** merge *)

Module MetaborgRelengMerge.

Record Args : Type := mkArgs { branch : string; confirmPrompt : bool }.

Definition main (repo : Repo) (a : Args) : Cmd Z :=
  cprint "Merging branch into current branch for each submodule" ;;
  cthen
    (if negb (confirmPrompt a) then
       cprint "This will merge branches, changing the state of your repositories, do you want to continue?" ;;
       yes <- cop (Base YesNo) ;;
       if negb yes then creturn 1 else cfall_through
     else cfall_through)
    (cop (MergeAll repo (branch a)) ;;
     CRet 0).

End MetaborgRelengMerge.

(** ** tag *)

Module MetaborgRelengTag.

Record Args : Type := mkArgs {
  tag : string;
  description : option string;
  confirmPrompt : bool
}.

Definition main (repo : Repo) (a : Args) : Cmd Z :=
  cprint "Creating a tag in each submodules" ;;
  cthen
    (if negb (confirmPrompt a) then
       cprint "This creates tags, changing the state of your repositories, do you want to continue?" ;;
       yes <- cop (Base YesNo) ;;
       if negb yes then creturn 1 else cfall_through
     else cfall_through)
    (cop (TagAll repo (tag a) (description a)) ;;
     CRet 0).

End MetaborgRelengTag.

(** ** push *)

Module MetaborgRelengPush.

Record Args : Type := mkArgs { confirmPrompt : bool }.

Definition main (repo : Repo) (a : Args) : Cmd Z :=
  cprint "Pushing current branch for each submodule" ;;
  cthen
    (if negb (confirmPrompt a) then
       cprint "This pushes commits to the remote repository, do you want to continue?" ;;
       yes <- cop (Base YesNo) ;;
       if negb yes then creturn 1 else cfall_through
     else cfall_through)
    (cop (PushAll repo) ;;
     CRet 0).

End MetaborgRelengPush.

(** ** checkout *)

Module MetaborgRelengCheckout.

Record Args : Type := mkArgs { confirmPrompt : bool }.

Definition main (repo : Repo) (a : Args) : Cmd Z :=
  cprint "Checking out correct branches for all submodules" ;;
  cthen
    (if negb (confirmPrompt a) then
       cprint ("WARNING: This will get rid of detached heads, including any commits you have made to detached heads, "
               ++ "do you want to continue?") ;;
       yes <- cop (Base YesNo) ;;
       if negb yes then creturn 1 else cfall_through
     else cfall_through)
    (cop (Base (CheckoutAll repo)) ;;
     CRet 0).

End MetaborgRelengCheckout.

(** ** bootstrap *)

Module MetaborgRelengBootstrap.

Record Args : Type := mkArgs { curVersion : string; curBaselineVersion : string }.

Definition main (repo : Repo) (a : Args) : Cmd Z :=
  cprint "Performing interactive bootstrap" ;;
  cop (Bootstrap repo (curVersion a) (curBaselineVersion a)) ;;
  CRet 0.

End MetaborgRelengBootstrap.

(** ** gen-mvn-settings *)

Module MetaborgRelengGenMvnSettings.

Record Args : Type := mkArgs {
  destination : string;
  metaborgReleases : string;
  metaborgSnapshots : string;
  noMetaborgSnapshots : bool;
  spoofaxUpdateSite : string;
  noSpoofaxUpdateSite : bool;
  centralMirror : string;
  confirmPrompt : bool
}.

(** ['Maven settings file already exists at {}, would you like to overwrite it?'.format(destination)]. *)
Definition format_exists (destination : string) : string :=
  "Maven settings file already exists at " ++ destination
  ++ ", would you like to overwrite it?".

Definition main (a : Args) : Cmd Z :=
  cprint "Generating Maven settings file" ;;
  cthen
    (if negb (confirmPrompt a) then
       is_file <- cop (isfile (destination a)) ;;
       if is_file then
         cprint (format_exists (destination a)) ;;
         yes <- cop (Base YesNo) ;;
         if negb yes then creturn 1 else cfall_through
       else cfall_through
     else cfall_through)
    (let metaborgSnapshots :=
       if noMetaborgSnapshots a then None else Some (metaborgSnapshots a) in
     let spoofaxUpdateSite :=
       if noSpoofaxUpdateSite a then None else Some (spoofaxUpdateSite a) in
     let generator :=
       mkMavenSettings (destination a) (metaborgReleases a) metaborgSnapshots
         spoofaxUpdateSite (centralMirror a) in
     cop (MetaborgMavenSettingsGeneratorGenerator generator) ;;
     cop (generate generator) ;;
     CRet 0).

End MetaborgRelengGenMvnSettings.

(** ** gen-icons *)

Module MetaborgRelengGenIcons.

Record Args : Type := mkArgs { destination : string; text : string }.

(** [main] ends without a [return]: its value is [None]. *)
Definition main (repo : Repo) (a : Args) : Cmd (option Z) :=
  cop (GenerateIcons repo (destination a) (text a)) ;;
  cprint "Done!" ;;
  CRet None.

End MetaborgRelengGenIcons.

(** ** qualifier *)

Module MetaborgRelengQualifier.

(** [main] ends without a [return]: its value is [None]. *)
Definition main (repo : Repo) : Cmd (option Z) :=
  q <- cop (create_qualifier repo) ;;
  cprint q ;;
  CRet None.

End MetaborgRelengQualifier.

(** ** Failures in a trace *)

(** The exception of the last event, when the last event is a call that
    raised. *)
Definition raised_last (tr : list Event) : option Exc :=
  match rev tr with
  | EvCall _ (Raised e) :: _ => Some e
  | _ => None
  end.

(** A command stops at the first call that raises and lets the exception
    out; without one it returns 0 or 1. *)
Definition stops_at_failure (r : Result Z) (tr : list Event) : Prop :=
  existsb call_raised (removelast tr) = false /\
  match raised_last tr with
  | Some e => r = Uncaught e
  | None => r = Done 0 \/ r = Done 1
  end.

(** The exceptions raised by calls other than [builder.build]. *)
Fixpoint setup_failures (tr : list Event) : list Exc :=
  match tr with
  | [] => []
  | EvCall (builder_build _ _) _ :: tr' => setup_failures tr'
  | EvCall _ (Raised e) :: tr' => e :: setup_failures tr'
  | _ :: tr' => setup_failures tr'
  end.

Definition is_SetVersions (c : Call) : bool :=
  match c with SetVersions _ _ _ _ _ _ => true | _ => false end.

Definition is_create_now_qualifier (c : Call) : bool :=
  match c with create_now_qualifier _ => true | _ => false end.

(** The builders the calls of the [RelengBuilder] constructor returned. *)
Fixpoint constructed_builders (tr : list Event) : list Builder :=
  match tr with
  | [] => []
  | EvCall (RelengBuilder _ _) (Returned b) :: tr' => b :: constructed_builders tr'
  | _ :: tr' => constructed_builders tr'
  end.

(** The builder attributes [MetaborgRelengBuild.main] assigns. *)
Definition assigned_attributes : list string :=
  ["copyArtifactsTo"; "clean"; "deploy"; "release"; "skipTests";
   "skipExpensive"; "offline"; "debug"; "quiet"; "qualifier";
   "generateJavaDoc"; "buildStratego"; "bootstrapStratego"; "testStratego";
   "mavenSettingsFile"; "mavenGlobalSettingsFile"; "mavenCleanLocalRepo";
   "mavenLocalRepo"; "mavenOpts"; "gradleNoNative"].

(** The same readings for the remaining commands. *)
Definition failed_last (tr : list Step) : option Exc :=
  match rev tr with
  | StOp _ (Raised e) :: _ => Some e
  | _ => None
  end.

Definition halts_at_failure {A : Type} (r : Result A) (tr : list Step) : Prop :=
  existsb op_raised (removelast tr) = false /\
  match failed_last tr with
  | Some e => r = Uncaught e
  | None => exists a, r = Done a
  end.

Definition approved (tr : list Step) : Prop := existsb said_yes tr = true.

Definition declined (tr : list Step) : Prop := existsb said_no tr = true.

(** A command guarded by one [YesNo] prompt that [-y] skips: with [-y] the
    guarded operation is the only call; without it the prompt comes first,
    the operation follows exactly when the answer is yes, and a no returns
    1. *)
Definition gated (confirm : bool) (guarded : Op) (r : Result Z)
    (tr : list Step) : Prop :=
  if confirm then ops tr = [guarded]
  else
    hd_error (ops tr) = Some (Base YesNo) /\
    (approved tr -> ops tr = [Base YesNo; guarded]) /\
    (~ approved tr -> ops tr = [Base YesNo]) /\
    (declined tr -> r = Done 1).

(** What the calls of [create_qualifier] returned. *)
Fixpoint computed_qualifiers (tr : list Step) : list string :=
  match tr with
  | [] => []
  | StOp (create_qualifier _) (Returned q) :: tr' => q :: computed_qualifiers tr'
  | _ :: tr' => computed_qualifiers tr'
  end.

(** The repositories the calls of [Repo] returned. *)
Fixpoint opened_repos (tr : list Step) : list Repo :=
  match tr with
  | [] => []
  | StOp (open_Repo _) (Returned r) :: tr' => r :: opened_repos tr'
  | _ :: tr' => opened_repos tr'
  end.

(** [path.isfile] answered that the file exists. *)
Definition file_found (st : Step) : bool :=
  match st with
  | StOp (isfile _) (Returned true) => true
  | _ => false
  end.

(** The questions gen-mvn-settings can ask: to the file system and to the
    user. *)
Definition is_question (o : Op) : bool :=
  match o with
  | isfile _ | Base YesNo => true
  | _ => false
  end.

Definition is_generator_op (o : Op) : bool :=
  match o with
  | MetaborgMavenSettingsGeneratorGenerator _ | generate _ => true
  | _ => false
  end.

(** A world for the remaining commands: the calls of [Call] as scripted,
    the destination being a file or not, every other call returning. *)
Definition world (s : Script) (is_file : bool) : World :=
  fun _ o =>
    match o return Outcome (answer_of o) with
    | Base c => scripted s [] c
    | create_qualifier _ => Returned (snd (changed_answer s))
    | open_Repo d => Returned (mkRepo d)
    | isfile _ => Returned is_file
    | TrackAll _ | MergeAll _ _ | TagAll _ _ _ | PushAll _ | Bootstrap _ _ _
    | GenerateIcons _ _ _ | help | ExistingDirectory _
    | MetaborgMavenSettingsGeneratorGenerator _ | generate _ => Returned tt
    end.

(** A world in which the repository directory does not exist. *)
Definition world_without_directory : World :=
  fun h o =>
    match o return Outcome (answer_of o) with
    | ExistingDirectory d => Raised (mkExc false (d ++ " is not a directory"))
    | o' => world (sample_script true) false h o'
    end.

Definition sample_mvn_args (confirm noSnapshots : bool)
  : MetaborgRelengGenMvnSettings.Args :=
  MetaborgRelengGenMvnSettings.mkArgs "/home/user/.m2/settings.xml"
    "https://artifacts.example.org/releases"
    "https://artifacts.example.org/snapshots" noSnapshots
    "https://artifacts.example.org/update" false
    "https://artifacts.example.org/central" confirm.

(** An environment in which [create_now_qualifier] fails with a
    [RuntimeError]. *)
Definition env_without_clock : Env :=
  fun h c =>
    match c return Outcome (resp c) with
    | create_now_qualifier _ => Raised (mkExc true "cannot read the clock")
    | c' => scripted (sample_script true) h c'
    end.

(** ** Proof automation *)

(** Case analysis on the environment's answer to the call the run is
    waiting for. *)
Ltac answer env :=
  match goal with
  | |- context [env ?h (create_now_qualifier ?r)] =>
      destruct (env h (create_now_qualifier r)) as [?|?] eqn:?
  | |- context [env ?h (RelengBuilder ?r ?d)] =>
      destruct (env h (RelengBuilder r d)) as [?|?] eqn:?
  | |- context [env ?h ?c] => destruct (env h c) as [[]|?] eqn:?
  end.

Ltac run_all env :=
  unfold exit_code, trace, exec; cbn;
  repeat (answer env; cbn).

Arguments MetaborgRelengBuild.format_mavenOpts : simpl never.
Arguments setattr : simpl never.

(** Run build with at least one component: the constructor's outcome,
    then the two qualifier switches, then the remaining calls. *)
Ltac build_cases env a :=
  unfold exit_code, trace, exec; cbn; answer env; cbn;
  [ destruct (MetaborgRelengBuild.qualifier a) as [[|? ?]|] eqn:?;
    destruct (MetaborgRelengBuild.nowQualifier a) eqn:?;
    cbn; repeat (answer env; cbn);
    repeat match goal with
           | |- context [exc_is_RuntimeError ?e] =>
               destruct (exc_is_RuntimeError e) eqn:?; cbn
           end
  | ].

(** The same for the remaining commands. *)
Ltac respond w :=
  match goal with
  | |- context [w ?h (create_qualifier ?r)] =>
      destruct (w h (create_qualifier r)) as [?|?] eqn:?
  | |- context [w ?h (open_Repo ?d)] =>
      destruct (w h (open_Repo d)) as [?|?] eqn:?
  | |- context [w ?h ?o] => destruct (w h o) as [[]|?] eqn:?
  end.

Ltac crun_all w :=
  unfold cexit, ctrace; cbn;
  repeat (respond w; cbn).

(** ** set-remote *)

Section SetRemote.
Import MetaborgRelengSetRemote.

(** C8: set-remote with neither [--ssh] nor [--http] prints an error and
    returns 1 without calling [SetRemoteAll]; with [--ssh] it calls
    [SetRemoteAll] with [SSH], with [--http] with [HTTP], and in both
    cases it returns 0 once the call has returned. *)
Theorem set_remote_selects_remote_type (env : Env) (repo : Repo) (a : Args) :
  accepted a = true ->
  let r := exit_code env (main repo a) in
  let tr := trace env (main repo a) in
  (toSsh a = false -> toHttp a = false ->
     r = Done 1 /\
     outputs tr = ["Must choose between SSH (-s) or HTTP (-h)"] /\
     calls tr = [])
  /\ (toSsh a = true ->
        calls tr = [SetRemoteAll repo SSH] /\ (all_returned tr -> r = Done 0))
  /\ (toHttp a = true ->
        calls tr = [SetRemoteAll repo HTTP] /\ (all_returned tr -> r = Done 0)).
Proof.
  unfold accepted, all_returned.
  destruct a as [[] []]; cbn [toSsh toHttp andb negb]; intros Hacc;
    try discriminate Hacc; run_all env;
    repeat split; intros; try discriminate; reflexivity.
Qed.

Lemma set_remote_selects_remote_type_witness :
  calls (trace (scripted (sample_script true))
           (main sample_repo (mkArgs false true)))
  = [SetRemoteAll sample_repo HTTP]
  /\ exit_code (scripted (sample_script true))
       (main sample_repo (mkArgs false true)) = Done 0.
Proof.
  destruct (set_remote_selects_remote_type (scripted (sample_script true))
              sample_repo (mkArgs false true) eq_refl) as [_ [_ H]].
  destruct (H eq_refl) as [Hc Hr].
  split; [exact Hc | apply Hr; reflexivity].
Defined.

End SetRemote.

(** ** clean-update *)

Section CleanUpdate.
Import MetaborgRelengCleanUpdate.

(** C9: once clean-update is past its confirmation gate (the [-y] flag, or
    a yes to the triple prompt) and as long as every call returns, it
    calls exactly [CheckoutAll], [ResetAll] to the remote, [CheckoutAll],
    [CleanAll] and [UpdateAll] with the given depth, in this order, and
    returns 0. *)
Theorem clean_update_sequence (env : Env) (repo : Repo) (a : Args) :
  let r := exit_code env (main repo a) in
  let tr := trace env (main repo a) in
  confirmPrompt a = true \/ confirmed tr ->
  all_returned tr ->
  calls tr =
    ((if confirmPrompt a then [] else [YesNoTrice]) ++
     [CheckoutAll repo; ResetAll repo true; CheckoutAll repo; CleanAll repo;
      UpdateAll repo (depth a)])%list
  /\ r = Done 0.
Proof.
  unfold confirmed, all_returned.
  destruct a as [[] d]; cbn [confirmPrompt depth]; run_all env;
    intros Hgate Hret; try discriminate Hret;
    try (destruct Hgate as [Hgate | Hgate]; discriminate Hgate);
    split; reflexivity.
Qed.

Lemma clean_update_sequence_witness :
  calls (trace (scripted (sample_script true))
           (main sample_repo (mkArgs false (Some 1))))
  = [YesNoTrice; CheckoutAll sample_repo; ResetAll sample_repo true;
     CheckoutAll sample_repo; CleanAll sample_repo;
     UpdateAll sample_repo (Some 1)]
  /\ exit_code (scripted (sample_script true))
       (main sample_repo (mkArgs false (Some 1))) = Done 0.
Proof.
  apply (clean_update_sequence (scripted (sample_script true)) sample_repo
           (mkArgs false (Some 1))).
  - right. reflexivity.
  - reflexivity.
Defined.

End CleanUpdate.

(** ** clean and reset *)

Section CleanReset.

(** C4: without [-y], clean and reset first show a confirmation prompt;
    [CleanAll], respectively [ResetAll] with either value of [toRemote],
    is called only after a yes, and after a yes it is called; a no returns
    1 and the operation is never called.  With [-y] there is no prompt
    and the operation is the only call. *)
Theorem clean_reset_confirmation_gate (env : Env) (repo : Repo) :
  (forall a : MetaborgRelengClean.Args,
     let r := exit_code env (MetaborgRelengClean.main repo a) in
     let tr := trace env (MetaborgRelengClean.main repo a) in
     (MetaborgRelengClean.confirmPrompt a = false ->
        hd_error (calls tr) = Some YesNoTwice /\
        (invoked is_CleanAll tr -> confirmed (before is_CleanAll tr)) /\
        (confirmed tr -> calls tr = [YesNoTwice; CleanAll repo]) /\
        (user_abort tr -> r = Done 1 /\ calls tr = [YesNoTwice]))
     /\ (MetaborgRelengClean.confirmPrompt a = true ->
          calls tr = [CleanAll repo]))
  /\
  (forall a : MetaborgRelengReset.Args,
     let r := exit_code env (MetaborgRelengReset.main repo a) in
     let tr := trace env (MetaborgRelengReset.main repo a) in
     let prompt := if MetaborgRelengReset.toRemote a then YesNoTrice else YesNoTwice in
     let op := ResetAll repo (MetaborgRelengReset.toRemote a) in
     (MetaborgRelengReset.confirmPrompt a = false ->
        hd_error (calls tr) = Some prompt /\
        (invoked is_ResetAll tr -> confirmed (before is_ResetAll tr)) /\
        (confirmed tr -> calls tr = [prompt; op]) /\
        (user_abort tr -> r = Done 1 /\ calls tr = [prompt]))
     /\ (MetaborgRelengReset.confirmPrompt a = true ->
          calls tr = [op])).
Proof.
  unfold invoked, confirmed, user_abort.
  split.
  - intros [[]]; cbn [MetaborgRelengClean.confirmPrompt]; run_all env;
      repeat split; intros; try discriminate; reflexivity.
  - intros [[] []];
      cbn [MetaborgRelengReset.confirmPrompt MetaborgRelengReset.toRemote];
      run_all env; repeat split; intros; try discriminate; reflexivity.
Qed.

Lemma clean_reset_confirmation_gate_witness :
  exit_code (scripted (sample_script false))
    (MetaborgRelengReset.main sample_repo (MetaborgRelengReset.mkArgs false true))
  = Done 1
  /\ calls (trace (scripted (sample_script false))
             (MetaborgRelengReset.main sample_repo
                (MetaborgRelengReset.mkArgs false true)))
     = [YesNoTrice].
Proof.
  destruct (clean_reset_confirmation_gate (scripted (sample_script false))
              sample_repo) as [_ H].
  destruct (H (MetaborgRelengReset.mkArgs false true)) as [Hno _].
  destruct (Hno eq_refl) as [_ [_ [_ Habort]]].
  apply Habort. reflexivity.
Defined.

End CleanReset.

(** ** release *)

Section Release.
Import MetaborgRelengRelease.

Variable CommonPrefix : list string -> string.
Variable scriptDir : string.

(** C3: when the common prefix of the repository directory and the
    script's directory is the repository directory, release prints an
    error and returns 1 without calling [Release]; otherwise [Release] is
    called with the five branch and version parameters, and the command
    returns 0 once it has returned. *)
Theorem release_refuses_own_repository (env : Env) (repo : Repo) (a : Args) :
  let r := exit_code env (main CommonPrefix scriptDir repo a) in
  let tr := trace env (main CommonPrefix scriptDir repo a) in
  let repoDir := working_tree_dir repo in
  (CommonPrefix [repoDir; scriptDir] = repoDir ->
     r = Done 1 /\
     calls tr = [] /\
     outputs tr =
       ["Performing interactive release";
        "Cannot perform release on the same repository this script is contained in, please set another repository using the -r/--repo switch."])
  /\ (CommonPrefix [repoDir; scriptDir] <> repoDir ->
        calls tr =
          [Release repo (releaseBranch a) (developBranch a)
             (curDevelopVersion a) (nextReleaseVersion a)
             (nextDevelopVersion a)] /\
        (all_returned tr -> r = Done 0)).
Proof.
  unfold all_returned, exit_code, trace, exec, main.
  cbn -[String.eqb append].
  destruct (String.eqb (CommonPrefix [working_tree_dir repo; scriptDir])
              (working_tree_dir repo)) eqn:E.
  - apply String.eqb_eq in E. split; intros H.
    + cbn. repeat split; reflexivity.
    + contradiction.
  - apply String.eqb_neq in E. split; intros H.
    + contradiction.
    + run_all env; split; intros; try discriminate; reflexivity.
Qed.

End Release.

Lemma release_refuses_own_repository_witness :
exit_code (scripted (sample_script true))
  (MetaborgRelengRelease.main sample_CommonPrefix
     "/work/spoofax-releng/releng/metaborg/releng" sample_repo
     (MetaborgRelengRelease.mkArgs "master" "develop" "2.0.0-SNAPSHOT"
        "2.0.0" "2.1.0-SNAPSHOT"))
= Done 1.
Proof.
destruct (release_refuses_own_repository sample_CommonPrefix
            "/work/spoofax-releng/releng/metaborg/releng"
            (scripted (sample_script true)) sample_repo
            (MetaborgRelengRelease.mkArgs "master" "develop" "2.0.0-SNAPSHOT"
               "2.0.0" "2.1.0-SNAPSHOT")) as [H _].
apply H. reflexivity.
Defined.

(** ** set-versions *)

Section SetVersions.
Import MetaborgRelengSetVersions.

(** C1: what set-versions does with its [-y] flag.  Without [-y] it never
    prompts and never prints a warning: [SetVersions] is its only call,
    whatever the other switches are.  With [-y], without dry-run and
    without [--commit], it prints the warning and prompts: a no returns 1
    with [SetVersions] never called, a yes goes on to [SetVersions]. *)
Theorem set_versions_prompt_inverted (env : Env) (repo : Repo)
    (f t : string) (c d : bool) :
  (let tr := trace env (main repo (mkArgs f t c d false)) in
   outputs tr = [] /\
   calls tr = [SetVersions repo f t true d c])
  /\
  (let r := exit_code env (main repo (mkArgs f t false false true)) in
   let tr := trace env (main repo (mkArgs f t false false true)) in
   let warning :=
     "WARNING: This will CHANGE pom.xml, MANIFEST.MF, and feature.xml files, do you want to continue?" in
   outputs tr = [warning] /\
   match env [EvOut warning] YesNo with
   | Returned false => r = Done 1 /\ calls tr = [YesNo]
   | Returned true => calls tr = [YesNo; SetVersions repo f t true false false]
   | Raised e => r = Uncaught e /\ calls tr = [YesNo]
   end).
Proof.
  split.
  - run_all env; split; reflexivity.
  - run_all env; repeat split; reflexivity.
Qed.

End SetVersions.

(** ** changed *)

Section Changed.
Import MetaborgRelengChanged.

(** C10: changed calls [repo_changed] on the repository and the
    destination on every run, as its first action and its only call; the
    [--force-change] flag changes neither the call nor its outcome, only
    what is printed and returned. *)
Theorem changed_always_checks (env : Env) (repo : Repo) (d : string)
    (force force' : bool) :
  let tr := trace env (main repo (mkArgs d force)) in
  let tr' := trace env (main repo (mkArgs d force')) in
  calls tr = [repo_changed repo d] /\
  hd_error tr = Some (EvCall (repo_changed repo d) (env [] (repo_changed repo d))) /\
  call_events tr = call_events tr'.
Proof.
  unfold exit_code, trace, exec; cbn.
  destruct (env [] (repo_changed repo d)) as [[changed q]|e] eqn:E; cbn.
  - destruct force, force', changed; cbn; repeat split; reflexivity.
  - repeat split; reflexivity.
Qed.

(** C2, as the code has it: when [repo_changed] reports a change or
    [--force-change] is set, changed prints the qualifier and returns 0;
    otherwise it returns 1 having printed nothing, and this exit code 1
    comes with no declined prompt and no failed call: it means
    "unchanged". *)
Theorem changed_exit_code (env : Env) (repo : Repo) (a : Args)
    (changed : bool) (q : string) :
  env [] (repo_changed repo (destination a)) = Returned (changed, q) ->
  let r := exit_code env (main repo a) in
  let tr := trace env (main repo a) in
  (forceChange a = true \/ changed = true ->
     outputs tr = [q] /\ r = Done 0)
  /\ (forceChange a = false -> changed = false ->
        r = Done 1 /\ outputs tr = [] /\
        ~ user_abort tr /\ ~ validation_failure tr /\ ~ backend_failure tr).
Proof.
  intros E. unfold exit_code, trace, exec, user_abort, validation_failure,
    backend_failure. cbn. rewrite E. cbn.
  destruct a as [d []], changed; cbn; split;
    try (intros [H | H]; try discriminate H);
    try (intros H1 H2; try discriminate H1; try discriminate H2);
    repeat split; try reflexivity; try discriminate; try congruence.
Qed.

Lemma changed_exit_code_witness :
  exit_code (scripted (sample_script true))
    (main sample_repo (mkArgs ".qualifier" false)) = Done 1.
Proof.
  destruct (changed_exit_code (scripted (sample_script true)) sample_repo
              (mkArgs ".qualifier" false) false "develop-20230103-000000"
              eq_refl) as [_ H].
  apply H; reflexivity.
Defined.

(** C2, as stated, fails: an unchanged repository makes changed return 1
    although no prompt was declined, nothing was reported and no call
    failed. *)
Lemma changed_exit_1_not_reserved :
  ~ exit_1_reserved
      (exit_code (scripted (sample_script true))
         (main sample_repo (mkArgs ".qualifier" false)))
      (trace (scripted (sample_script true))
         (main sample_repo (mkArgs ".qualifier" false))).
Proof.
  unfold exit_1_reserved, user_abort, validation_failure, backend_failure.
  cbn. intros H.
  destruct (H eq_refl) as [H1 | [H1 | H1]];
    [discriminate H1 | apply H1; reflexivity | discriminate H1].
Qed.

End Changed.

(** ** build *)

Section Build.
Import MetaborgRelengBuild.



(** C5: when [builder.build] raises a [RuntimeError], build prints that
    error's message, and nothing else, and returns 1; when it returns,
    build returns 0 having printed nothing.  Any other exception
    propagates.  With at least one component and no failure on the way,
    [builder.build] is called, once, on these components. *)
Theorem build_reports_backend_failure (env : Env) (repo : Repo) (a : Args)
    (components : list string) :
  let r := exit_code env (main repo a components) in
  let tr := trace env (main repo a components) in
  (components <> [] -> all_returned (before is_build tr) ->
     exists b o,
       filter is_build (calls tr) = [builder_build b components] /\
       build_outcomes tr = [o])
  /\ (forall e, In (Raised e) (build_outcomes tr) ->
        if exc_is_RuntimeError e
        then r = Done 1 /\ outputs tr = [exc_str e]
        else r = Uncaught e /\ outputs tr = [])
  /\ (In (Returned tt) (build_outcomes tr) -> r = Done 0 /\ outputs tr = []).
Proof.
  unfold all_returned.
  destruct components as [|c cs].
  - run_all env; (split; [intros H; contradiction | split; [intros ? [] | intros []]]).
  - build_cases env a.
    all: split;
      [intros _ Hret; try discriminate Hret; do 2 eexists; split; reflexivity | ].
    all: split; [intros e0 Hin | intros Hin]; cbn in Hin.
    all: try contradiction.
    all: destruct Hin as [Hin | []]; try discriminate Hin.
    all: try (split; reflexivity).
    all: injection Hin as <-.
    all: match goal with H : exc_is_RuntimeError _ = _ |- _ => rewrite H end.
    all: split; reflexivity.
Qed.

Lemma build_reports_backend_failure_witness :
  exit_code (scripted failing_script)
    (main sample_repo (build_args None false) ["java"]) = Done 1
  /\ outputs (trace (scripted failing_script)
                (main sample_repo (build_args None false) ["java"]))
     = ["Maven build failed"].
Proof.
  destruct (build_reports_backend_failure (scripted failing_script)
              sample_repo (build_args None false) ["java"]) as [_ [H _]].
  apply (H (mkExc true "Maven build failed")).
  left. reflexivity.
Defined.

(** C7, as the code has it: the builder handed to [builder.build] has as
    its [qualifier] the [--qualifier] string when that string is not
    empty; otherwise, switch absent or empty, what
    [create_now_qualifier] returned when [--now-qualifier] is set, which
    is then its only call; otherwise [None]. *)
Theorem build_qualifier_choice (env : Env) (repo : Repo) (a : Args)
    (components : list string) :
  let tr := trace env (main repo a components) in
  components <> [] ->
  all_returned (before is_build tr) ->
  exists b,
    filter is_build (calls tr) = [builder_build b components] /\
    (forall s, qualifier a = Some s -> s <> "" ->
       getattr b "qualifier" = Some (VStr s) /\ now_qualifiers tr = [])
    /\ (qualifier a = None \/ qualifier a = Some "" ->
          nowQualifier a = true ->
          exists q, now_qualifiers tr = [q] /\
                    getattr b "qualifier" = Some (VStr q))
    /\ (qualifier a = None \/ qualifier a = Some "" ->
          nowQualifier a = false ->
          getattr b "qualifier" = Some VNone /\ now_qualifiers tr = []).
Proof.
  unfold all_returned.
  destruct components as [|c cs]; [intros H _; exfalso; apply H; reflexivity|].
  build_cases env a.
  all: intros _ Hret; try discriminate Hret.
  all: eexists; split; [reflexivity|].
  all: split; [|split]; intros.
  all: try match goal with H : _ \/ _ |- _ => destruct H end.
  all: try congruence.
  all: try match goal with H : Some _ = Some _ |- _ => injection H as <- end.
  all: try (split; reflexivity).
  all: try (eexists; split; reflexivity).
Qed.

Lemma build_qualifier_choice_witness :
  exists b,
    filter is_build
      (calls (trace (scripted (sample_script true))
                (main sample_repo (build_args (Some "nightly") false) ["java"])))
    = [builder_build b ["java"]]
    /\ getattr b "qualifier" = Some (VStr "nightly").
Proof.
  destruct (build_qualifier_choice (scripted (sample_script true))
              sample_repo (build_args (Some "nightly") false) ["java"])
    as [b [Hb [H _]]].
  - discriminate.
  - reflexivity.
  - exists b. split; [exact Hb|].
    apply (H "nightly"); [reflexivity | discriminate].
Defined.

(** The switch declarations accept [--qualifier] with the empty string. *)
Example empty_qualifier_accepted :
  accepted (build_args (Some "") false) = true.
Proof. reflexivity. Qed.

(** C7, as stated, fails: with the empty string given to [--qualifier]
    the builder gets [None], not that string. *)
Lemma build_empty_qualifier_dropped :
  ~ qualifier_switch_kept (scripted (sample_script true)) sample_repo
      (build_args (Some "") false) ["java"].
Proof.
  unfold qualifier_switch_kept, trace, exec. cbn. intros H.
  specialize (H "" eq_refl _ _ (or_intror (or_introl eq_refl))).
  discriminate H.
Qed.

End Build.

(** ** Failure and refusal in the fleet commands *)

Section FleetFailures.

(** X1: A no, or a failing prompt, keeps clean-update away from the fleet: the
    prompt is its only call, the banner is not printed, and a no returns
    1. *)
Theorem clean_update_declined (env : Env) (repo : Repo)
    (a : MetaborgRelengCleanUpdate.Args) :
  let r := exit_code env (MetaborgRelengCleanUpdate.main repo a) in
  let tr := trace env (MetaborgRelengCleanUpdate.main repo a) in
  MetaborgRelengCleanUpdate.confirmPrompt a = false ->
  ~ confirmed tr ->
  calls tr = [YesNoTrice] /\
  outputs tr =
    ["WARNING: This will DELETE UNCOMMITED CHANGES, DELETE UNPUSHED COMMITS, and DELETE UNTRACKED FILES. Do you want to continue?"] /\
  (user_abort tr -> r = Done 1).
Proof.
  unfold confirmed, user_abort.
  destruct a as [[] d]; cbn [MetaborgRelengCleanUpdate.confirmPrompt];
    intros Hflag; try discriminate Hflag.
  unfold exit_code, trace, exec; cbn.
  answer env; cbn.
  - intros Hyes. exfalso. apply Hyes.
    repeat (answer env; cbn); reflexivity.
  - intros _. repeat split; reflexivity.
  - intros _. repeat split; try reflexivity. discriminate.
Qed.

Lemma clean_update_declined_witness :
  calls (trace (scripted (sample_script false))
           (MetaborgRelengCleanUpdate.main sample_repo
              (MetaborgRelengCleanUpdate.mkArgs false None)))
  = [YesNoTrice]
  /\ exit_code (scripted (sample_script false))
       (MetaborgRelengCleanUpdate.main sample_repo
          (MetaborgRelengCleanUpdate.mkArgs false None)) = Done 1.
Proof.
  destruct (clean_update_declined (scripted (sample_script false)) sample_repo
              (MetaborgRelengCleanUpdate.mkArgs false None) eq_refl)
    as [Hc [_ Hr]].
  - discriminate.
  - split; [exact Hc | apply Hr; reflexivity].
Defined.

(** X2: set-remote, clean-update, clean, reset, set-versions, release and
    changed make no call after one that raised, let that exception out
    unchanged, and otherwise return 0 or 1; in particular set-remote never
    reaches its unbound [toType]. *)
Theorem fleet_commands_stop_at_failure (env : Env) (repo : Repo) :
  (forall a, stops_at_failure
               (exit_code env (MetaborgRelengSetRemote.main repo a))
               (trace env (MetaborgRelengSetRemote.main repo a)))
  /\ (forall a, stops_at_failure
                  (exit_code env (MetaborgRelengCleanUpdate.main repo a))
                  (trace env (MetaborgRelengCleanUpdate.main repo a)))
  /\ (forall a, stops_at_failure
                  (exit_code env (MetaborgRelengClean.main repo a))
                  (trace env (MetaborgRelengClean.main repo a)))
  /\ (forall a, stops_at_failure
                  (exit_code env (MetaborgRelengReset.main repo a))
                  (trace env (MetaborgRelengReset.main repo a)))
  /\ (forall a, stops_at_failure
                  (exit_code env (MetaborgRelengSetVersions.main repo a))
                  (trace env (MetaborgRelengSetVersions.main repo a)))
  /\ (forall CommonPrefix scriptDir a,
        stops_at_failure
          (exit_code env (MetaborgRelengRelease.main CommonPrefix scriptDir repo a))
          (trace env (MetaborgRelengRelease.main CommonPrefix scriptDir repo a)))
  /\ (forall a, stops_at_failure
                  (exit_code env (MetaborgRelengChanged.main repo a))
                  (trace env (MetaborgRelengChanged.main repo a))).
Proof.
  unfold stops_at_failure, raised_last.
  split; [|split; [|split; [|split; [|split; [|split]]]]].
  - intros [[] []]; run_all env; auto.
  - intros [[] d]; run_all env; auto.
  - intros [[]]; run_all env; auto.
  - intros [[] []]; run_all env; auto.
  - intros [f t [] [] []]; run_all env; auto.
  - intros CommonPrefix scriptDir a.
    unfold exit_code, trace, exec, MetaborgRelengRelease.main.
    cbn -[String.eqb].
    destruct (String.eqb (CommonPrefix [working_tree_dir repo; scriptDir])
                (working_tree_dir repo)); run_all env; auto.
  - intros [d force]. unfold exit_code, trace, exec; cbn.
    destruct (env [] (repo_changed repo d)) as [[changed q]|e]; cbn; auto.
    destruct force, changed; cbn; auto.
Qed.

End FleetFailures.
(** ** More on set-versions *)

Section SetVersionsShape.
Import MetaborgRelengSetVersions.

(** X3: set-versions calls [SetVersions] at most once, as its last call, with
    the two versions and the dry-run and commit switches as given and with
    [True] as fourth argument; in a dry run it is the only call, whatever
    the other switches are, and nothing is printed. *)
Theorem set_versions_call_shape (env : Env) (repo : Repo) (a : Args) :
  let tr := trace env (main repo a) in
  let expected :=
    SetVersions repo (fromVersion a) (toVersion a) true (dryRun a) (commit a) in
  (filter is_SetVersions (calls tr) = [expected] /\
   last (calls tr) expected = expected
   \/ filter is_SetVersions (calls tr) = [])
  /\ (dryRun a = true -> calls tr = [expected] /\ outputs tr = []).
Proof.
  destruct a as [f t [] [] []]; run_all env;
    (split; [auto | intros H; try discriminate H; auto]).
Qed.

Lemma set_versions_call_shape_witness :
  calls (trace (scripted (sample_script false))
           (main sample_repo (mkArgs "2.0.0-SNAPSHOT" "2.0.0" false true true)))
  = [SetVersions sample_repo "2.0.0-SNAPSHOT" "2.0.0" true true false].
Proof.
  destruct (set_versions_call_shape (scripted (sample_script false))
              sample_repo (mkArgs "2.0.0-SNAPSHOT" "2.0.0" false true true))
    as [_ H].
  apply H. reflexivity.
Defined.

End SetVersionsShape.

(** ** More on build *)

Section BuildConfiguration.
Import MetaborgRelengBuild.



Lemma assigned_name_differs (n name : string) :
  existsb (String.eqb n) assigned_attributes = true ->
  ~ In name assigned_attributes ->
  String.eqb n name = false.
Proof.
  intros H Hn. apply String.eqb_neq. intros <-. apply Hn.
  apply existsb_exists in H. destruct H as [x [Hin Hx]].
  apply String.eqb_eq in Hx. subst x. exact Hin.
Qed.

Lemma getattr_setattr_other (n name : string) (v : Val) (b : Builder) :
  String.eqb n name = false ->
  getattr (setattr n v b) name = getattr b name.
Proof.
  intros H. unfold getattr, setattr. cbn [attrs lookup_attr].
  rewrite H. reflexivity.
Qed.

(** X5: The attributes build does not assign, and the targets, reach
    [builder.build] as the constructor left them. *)
Theorem build_keeps_other_attributes (env : Env) (repo : Repo) (a : Args)
    (components cs : list string) (b0 b : Builder) (name : string) :
  let tr := trace env (main repo a components) in
  In b0 (constructed_builders tr) ->
  In (builder_build b cs) (calls tr) ->
  ~ In name assigned_attributes ->
  getattr b name = getattr b0 name /\ targets b = targets b0.
Proof.
  destruct components as [|c cs'].
  - run_all env; intros _ Hb; cbn in Hb; intuition discriminate.
  - build_cases env a.
    all: intros H0 Hb Hn; cbn in H0, Hb.
    all: try contradiction.
    all: destruct H0 as [<- | []].
    all: repeat match goal with
                | H : _ \/ _ |- _ => destruct H as [H | H]
                | H : False |- _ => destruct H
                end.
    all: try discriminate.
    all: injection Hb as <- <-.
    all: split; [|reflexivity].
    all: repeat rewrite getattr_setattr_other
           by (apply assigned_name_differs; [reflexivity | exact Hn]).
    all: reflexivity.
Qed.

Lemma build_keeps_other_attributes_witness :
  exists b,
    filter is_build
      (calls (trace (scripted (sample_script true))
                (main sample_repo (build_args None false) ["java"])))
    = [builder_build b ["java"]]
    /\ getattr b "verbose" = None
    /\ targets b = ["java"; "eclipse"].
Proof.
  eexists. split; [reflexivity|].
  apply (build_keeps_other_attributes (scripted (sample_script true))
           sample_repo (build_args None false) ["java"] ["java"]
           sample_builder _ "verbose").
  - left. reflexivity.
  - right. left. reflexivity.
  - cbn. intuition discriminate.
Defined.

End BuildConfiguration.

Section BuildFailures.
Import MetaborgRelengBuild.

(** X6: An exception raised before [builder.build], by the constructor or by
    [create_now_qualifier], is not caught even when it is a
    [RuntimeError]: it leaves build as it is, nothing is printed and
    [builder.build] is not called. *)
Theorem build_setup_failures_propagate (env : Env) (repo : Repo) (a : Args)
    (components : list string) (e : Exc) :
  let r := exit_code env (main repo a components) in
  let tr := trace env (main repo a components) in
  In e (setup_failures tr) ->
  r = Uncaught e /\ outputs tr = [] /\ build_outcomes tr = [].
Proof.
  destruct components as [|c cs].
  - run_all env; cbn; intros H; try contradiction;
      destruct H as [<- | []]; repeat split; reflexivity.
  - build_cases env a.
    all: cbn; intros H; try contradiction.
    all: destruct H as [<- | []]; repeat split; reflexivity.
Qed.

Lemma build_setup_failures_propagate_witness :
  exit_code env_without_clock
    (main sample_repo (build_args None true) ["java"])
  = Uncaught (mkExc true "cannot read the clock")
  /\ outputs (trace env_without_clock
                (main sample_repo (build_args None true) ["java"])) = [].
Proof.
  destruct (build_setup_failures_propagate env_without_clock sample_repo
              (build_args None true) ["java"]
              (mkExc true "cannot read the clock")) as [Hr [Ho _]].
  - left. reflexivity.
  - split; [exact Hr | exact Ho].
Defined.

(** X7: build asks [create_now_qualifier] only when it has components, no
    non-empty [--qualifier] and [--now-qualifier], and then once; under
    these conditions, and the constructor having returned, it does ask. *)
Theorem build_now_qualifier_only_when_needed (env : Env) (repo : Repo)
    (a : Args) (components : list string) :
  let tr := trace env (main repo a components) in
  (invoked is_create_now_qualifier tr ->
     components <> [] /\ truthy (qualifier a) = false /\
     nowQualifier a = true /\
     filter is_create_now_qualifier (calls tr) = [create_now_qualifier repo])
  /\ (components <> [] -> truthy (qualifier a) = false ->
        nowQualifier a = true ->
        all_returned (before is_create_now_qualifier tr) ->
        invoked is_create_now_qualifier tr).
Proof.
  unfold invoked, all_returned.
  destruct components as [|c cs].
  - run_all env; (split; [intros H; discriminate H | intros H; exfalso; apply H; reflexivity]).
  - build_cases env a.
    all: split; [intros H; try discriminate H | intros _ Ht Hn Hret];
      try discriminate; try reflexivity.
    all: repeat split; try reflexivity; discriminate.
Qed.

Lemma build_now_qualifier_only_when_needed_witness :
  invoked is_create_now_qualifier
    (trace (scripted (sample_script true))
       (main sample_repo (build_args None true) ["java"])).
Proof.
  destruct (build_now_qualifier_only_when_needed (scripted (sample_script true))
              sample_repo (build_args None true) ["java"]) as [_ H].
  apply H; [discriminate | reflexivity | reflexivity | reflexivity].
Defined.

End BuildFailures.

(** ** The remaining commands *)

Section RemainingCommands.

(** X8: merge, tag, push and checkout are guarded by one prompt: without [-y]
    [YesNo] is their first call, the fleet operation follows exactly when
    the answer is yes, and a no returns 1; with [-y] the operation is the
    only call.  The operation gets the branch, respectively the tag name
    and description, as given. *)
Theorem single_prompt_commands_gate (w : World) (repo : Repo) :
  (forall a, gated (MetaborgRelengMerge.confirmPrompt a)
               (MergeAll repo (MetaborgRelengMerge.branch a))
               (cexit w (MetaborgRelengMerge.main repo a))
               (ctrace w (MetaborgRelengMerge.main repo a)))
  /\ (forall a, gated (MetaborgRelengTag.confirmPrompt a)
                  (TagAll repo (MetaborgRelengTag.tag a)
                     (MetaborgRelengTag.description a))
                  (cexit w (MetaborgRelengTag.main repo a))
                  (ctrace w (MetaborgRelengTag.main repo a)))
  /\ (forall a, gated (MetaborgRelengPush.confirmPrompt a) (PushAll repo)
                  (cexit w (MetaborgRelengPush.main repo a))
                  (ctrace w (MetaborgRelengPush.main repo a)))
  /\ (forall a, gated (MetaborgRelengCheckout.confirmPrompt a)
                  (Base (CheckoutAll repo))
                  (cexit w (MetaborgRelengCheckout.main repo a))
                  (ctrace w (MetaborgRelengCheckout.main repo a))).
Proof.
  unfold gated, approved, declined.
  split; [|split; [|split]].
  - intros [b []]; crun_all w; repeat split; intros; try discriminate;
      try reflexivity; exfalso; auto.
  - intros [t d []]; crun_all w; repeat split; intros; try discriminate;
      try reflexivity; exfalso; auto.
  - intros [[]]; crun_all w; repeat split; intros; try discriminate;
      try reflexivity; exfalso; auto.
  - intros [[]]; crun_all w; repeat split; intros; try discriminate;
      try reflexivity; exfalso; auto.
Qed.

Lemma single_prompt_commands_gate_witness :
  ops (ctrace (world (sample_script false) false)
         (MetaborgRelengPush.main sample_repo (MetaborgRelengPush.mkArgs false)))
  = [Base YesNo]
  /\ cexit (world (sample_script false) false)
       (MetaborgRelengPush.main sample_repo (MetaborgRelengPush.mkArgs false))
     = Done 1.
Proof.
  destruct (single_prompt_commands_gate (world (sample_script false) false)
              sample_repo) as [_ [_ [H _]]].
  destruct (H (MetaborgRelengPush.mkArgs false)) as [_ [_ [Hn Hd]]].
  split; [apply Hn; discriminate | apply Hd; reflexivity].
Defined.

(** X9: update, track and bootstrap ask nothing: each makes one call, the
    fleet operation or the workflow with the depth or versions as given,
    and returns 0 when it has returned. *)
Theorem unguarded_commands_single_call (w : World) (repo : Repo) :
  (forall a,
     let tr := ctrace w (MetaborgRelengUpdate.main repo a) in
     ops tr = [Base (UpdateAll repo (MetaborgRelengUpdate.depth a))] /\
     (existsb op_raised tr = false ->
      cexit w (MetaborgRelengUpdate.main repo a) = Done 0))
  /\ (let tr := ctrace w (MetaborgRelengTrack.main repo) in
      ops tr = [TrackAll repo] /\
      (existsb op_raised tr = false ->
       cexit w (MetaborgRelengTrack.main repo) = Done 0))
  /\ (forall a,
        let tr := ctrace w (MetaborgRelengBootstrap.main repo a) in
        ops tr = [Bootstrap repo (MetaborgRelengBootstrap.curVersion a)
                    (MetaborgRelengBootstrap.curBaselineVersion a)] /\
        (existsb op_raised tr = false ->
         cexit w (MetaborgRelengBootstrap.main repo a) = Done 0)).
Proof.
  split; [|split].
  - intros [d]; crun_all w; split; intros; try discriminate; reflexivity.
  - crun_all w; split; intros; try discriminate; reflexivity.
  - intros [v bv]; crun_all w; split; intros; try discriminate; reflexivity.
Qed.

Lemma unguarded_commands_single_call_witness :
  cexit (world (sample_script true) false)
    (MetaborgRelengUpdate.main sample_repo (MetaborgRelengUpdate.mkArgs None))
  = Done 0.
Proof.
  destruct (unguarded_commands_single_call (world (sample_script true) false)
              sample_repo) as [H _].
  destruct (H (MetaborgRelengUpdate.mkArgs None)) as [_ Hr].
  apply Hr. reflexivity.
Defined.

End RemainingCommands.

Section Reports.

(** X10: qualifier only computes and prints: [create_qualifier] is its one call,
    so the qualifier record is not touched, what it prints is what that
    call returned, and its value is [None].  gen-icons prints its
    ["Done!"] only when [GenerateIcons], its one call, has returned. *)
Theorem qualifier_and_icons_report (w : World) (repo : Repo) :
  (let tr := ctrace w (MetaborgRelengQualifier.main repo) in
   ops tr = [create_qualifier repo] /\
   printed tr = computed_qualifiers tr /\
   (existsb op_raised tr = false ->
    exists q, printed tr = [q] /\
              cexit w (MetaborgRelengQualifier.main repo) = Done None))
  /\ (forall a,
        let tr := ctrace w (MetaborgRelengGenIcons.main repo a) in
        ops tr = [GenerateIcons repo (MetaborgRelengGenIcons.destination a)
                    (MetaborgRelengGenIcons.text a)] /\
        printed tr = (if existsb op_raised tr then [] else ["Done!"]) /\
        (existsb op_raised tr = false ->
         cexit w (MetaborgRelengGenIcons.main repo a) = Done None)).
Proof.
  split.
  - crun_all w; repeat split; intros; try discriminate; try reflexivity.
    eexists; split; reflexivity.
  - intros [d t]; crun_all w; repeat split; intros; try discriminate;
      reflexivity.
Qed.

Lemma qualifier_and_icons_report_witness :
  printed (ctrace (world (sample_script true) false)
             (MetaborgRelengQualifier.main sample_repo))
  = ["develop-20230103-000000"]
  /\ cexit (world (sample_script true) false)
       (MetaborgRelengQualifier.main sample_repo) = Done None.
Proof.
  destruct (qualifier_and_icons_report (world (sample_script true) false)
              sample_repo) as [[_ [Hp H]] _].
  destruct (H eq_refl) as [q [_ Hr]].
  split; [rewrite Hp; reflexivity | exact Hr].
Defined.

End Reports.

Section Root.
Import MetaborgReleng.

(** X11: The root command without a sub-command prints an error and the help
    and returns 1, leaving [repo] as it was and opening nothing.  With a
    sub-command it first checks that the repository directory exists; the
    repository is opened only after that check has returned, from the same
    directory, and [main] then returns 0 with [repo] set to it. *)
Theorem root_main_opens_repository (w : World) (self : App) :
  let r := cexit w (main self) in
  let tr := ctrace w (main self) in
  let d := repoDirectory self in
  (nested_command self = false ->
     ops tr = [help] /\ printed tr = ["Error: no command given"] /\
     (existsb op_raised tr = false -> r = Done (1, self)))
  /\ (nested_command self = true ->
        hd_error (ops tr) = Some (ExistingDirectory d) /\
        (In (open_Repo d) (ops tr) ->
         hd_error tr = Some (StOp (ExistingDirectory d) (Returned tt))) /\
        (existsb op_raised tr = false ->
         exists rp,
           ops tr = [ExistingDirectory d; open_Repo d] /\
           opened_repos tr = [rp] /\
           r = Done (0, mkApp d (Some rp) true))).
Proof.
  destruct self as [d rp []]; cbn [nested_command repoDirectory];
    (split; intros Hn; try discriminate Hn); crun_all w.
  all: repeat split; intros; try discriminate; try reflexivity.
  all: try (eexists; repeat split; reflexivity).
  all: cbn in *; intuition discriminate.
Qed.

Lemma root_main_opens_repository_witness :
  ops (ctrace world_without_directory (main (repo_directory (fresh true) "/nowhere")))
  = [ExistingDirectory "/nowhere"]
  /\ cexit (world (sample_script true) false)
       (main (repo_directory (fresh true) "/work/spoofax-releng"))
     = Done (0, mkApp "/work/spoofax-releng" (Some sample_repo) true).
Proof.
  split; [reflexivity|].
  destruct (root_main_opens_repository (world (sample_script true) false)
              (repo_directory (fresh true) "/work/spoofax-releng")) as [_ H].
  destruct (H eq_refl) as [_ [_ Hr]].
  destruct (Hr eq_refl) as [rp [_ [Ho Hd]]].
  injection Ho as <-. exact Hd.
Defined.

End Root.

Section GenMvnSettings.
Import MetaborgRelengGenMvnSettings.

(** X12: gen-mvn-settings asks before it overwrites: with [-y] it asks neither
    the file system nor the user; without [-y] it first asks whether the
    destination is a file, prompts exactly when it is, and after a no
    returns 1 with no generator constructed or run. *)
Theorem gen_mvn_settings_overwrite_gate (w : World) (a : Args) :
  let r := cexit w (main a) in
  let tr := ctrace w (main a) in
  (confirmPrompt a = true -> filter is_question (ops tr) = [])
  /\ (confirmPrompt a = false ->
        hd_error (ops tr) = Some (isfile (destination a)) /\
        (existsb file_found tr = false ->
           filter is_question (ops tr) = [isfile (destination a)]) /\
        (existsb file_found tr = true ->
           filter is_question (ops tr) = [isfile (destination a); Base YesNo] /\
           printed tr =
             ["Generating Maven settings file"; format_exists (destination a)]) /\
        (declined tr ->
           r = Done 1 /\ ops tr = [isfile (destination a); Base YesNo])).
Proof.
  unfold declined.
  destruct a as [d rel snap [] upd [] mirror []];
    cbn [confirmPrompt destination];
    (split; intros Hc; try discriminate Hc); crun_all w.
  all: repeat split; intros; try discriminate; reflexivity.
Qed.

Lemma gen_mvn_settings_overwrite_gate_witness :
  cexit (world (sample_script false) true) (main (sample_mvn_args false false))
  = Done 1.
Proof.
  destruct (gen_mvn_settings_overwrite_gate (world (sample_script false) true)
              (sample_mvn_args false false)) as [_ H].
  destruct (H eq_refl) as [_ [_ [_ Hd]]].
  apply Hd. reflexivity.
Defined.

(** X13: gen-mvn-settings constructs one generator, with the destination, the
    release repository and the mirror as given, the snapshot repository
    replaced by [None] under [--no-metaborg-snapshots] and the update site
    by [None] under [--no-spoofax-update-site], and runs [generate] on that
    generator only, after the constructor has returned. *)
Theorem gen_mvn_settings_generator (w : World) (a : Args) :
  let r := cexit w (main a) in
  let tr := ctrace w (main a) in
  let g :=
    mkMavenSettings (destination a) (metaborgReleases a)
      (if noMetaborgSnapshots a then None else Some (metaborgSnapshots a))
      (if noSpoofaxUpdateSite a then None else Some (spoofaxUpdateSite a))
      (centralMirror a) in
  (filter is_generator_op (ops tr) = []
   \/ filter is_generator_op (ops tr) = [MetaborgMavenSettingsGeneratorGenerator g]
   \/ filter is_generator_op (ops tr) =
        [MetaborgMavenSettingsGeneratorGenerator g; generate g])
  /\ (confirmPrompt a = true -> existsb op_raised tr = false ->
        ops tr = [MetaborgMavenSettingsGeneratorGenerator g; generate g] /\
        r = Done 0).
Proof.
  destruct a as [d rel snap [] upd [] mirror []];
    cbn [confirmPrompt destination noMetaborgSnapshots noSpoofaxUpdateSite
         metaborgReleases metaborgSnapshots spoofaxUpdateSite centralMirror];
    crun_all w.
  all: split; [auto | intros Hc Hr; try discriminate Hc; try discriminate Hr].
  all: split; reflexivity.
Qed.

Lemma gen_mvn_settings_generator_witness :
  ops (ctrace (world (sample_script true) true) (main (sample_mvn_args true true)))
  = [MetaborgMavenSettingsGeneratorGenerator
       (mkMavenSettings "/home/user/.m2/settings.xml"
          "https://artifacts.example.org/releases" None
          (Some "https://artifacts.example.org/update")
          "https://artifacts.example.org/central");
     generate
       (mkMavenSettings "/home/user/.m2/settings.xml"
          "https://artifacts.example.org/releases" None
          (Some "https://artifacts.example.org/update")
          "https://artifacts.example.org/central")].
Proof.
  destruct (gen_mvn_settings_generator (world (sample_script true) true)
              (sample_mvn_args true true)) as [_ H].
  destruct (H eq_refl eq_refl) as [Ho _]. exact Ho.
Defined.

End GenMvnSettings.

Section RemainingFailures.

(** X14: The root command, update, track, merge, tag, push, checkout,
    bootstrap, gen-mvn-settings, gen-icons and qualifier make no call after
    one that raised and let that exception out unchanged; none of them
    catches anything. *)
Theorem remaining_commands_halt_at_failure (w : World) (repo : Repo) :
  (forall self, halts_at_failure (cexit w (MetaborgReleng.main self))
                  (ctrace w (MetaborgReleng.main self)))
  /\ (forall a, halts_at_failure (cexit w (MetaborgRelengUpdate.main repo a))
                  (ctrace w (MetaborgRelengUpdate.main repo a)))
  /\ halts_at_failure (cexit w (MetaborgRelengTrack.main repo))
       (ctrace w (MetaborgRelengTrack.main repo))
  /\ (forall a, halts_at_failure (cexit w (MetaborgRelengMerge.main repo a))
                  (ctrace w (MetaborgRelengMerge.main repo a)))
  /\ (forall a, halts_at_failure (cexit w (MetaborgRelengTag.main repo a))
                  (ctrace w (MetaborgRelengTag.main repo a)))
  /\ (forall a, halts_at_failure (cexit w (MetaborgRelengPush.main repo a))
                  (ctrace w (MetaborgRelengPush.main repo a)))
  /\ (forall a, halts_at_failure (cexit w (MetaborgRelengCheckout.main repo a))
                  (ctrace w (MetaborgRelengCheckout.main repo a)))
  /\ (forall a, halts_at_failure (cexit w (MetaborgRelengBootstrap.main repo a))
                  (ctrace w (MetaborgRelengBootstrap.main repo a)))
  /\ (forall a, halts_at_failure (cexit w (MetaborgRelengGenMvnSettings.main a))
                  (ctrace w (MetaborgRelengGenMvnSettings.main a)))
  /\ (forall a, halts_at_failure (cexit w (MetaborgRelengGenIcons.main repo a))
                  (ctrace w (MetaborgRelengGenIcons.main repo a)))
  /\ halts_at_failure (cexit w (MetaborgRelengQualifier.main repo))
       (ctrace w (MetaborgRelengQualifier.main repo)).
Proof.
  repeat match goal with |- _ /\ _ => split end.
  all: unfold halts_at_failure, failed_last.
  - intros [d rp []]; crun_all w; eauto.
  - intros [d]; crun_all w; eauto.
  - crun_all w; eauto.
  - intros [b []]; crun_all w; eauto.
  - intros [t d []]; crun_all w; eauto.
  - intros [[]]; crun_all w; eauto.
  - intros [[]]; crun_all w; eauto.
  - intros [v bv]; crun_all w; eauto.
  - intros [d rel snap [] upd [] mirror []]; crun_all w; eauto.
  - intros [d t]; crun_all w; eauto.
  - crun_all w; eauto.
Qed.

End RemainingFailures.
